(** * qmk cformat: selection of the C files to format and the dry-run check

    A shallow embedding of [lib/python/qmk/cli/cformat.py].

    A Python [str] is a Rocq [string]; its characters stand for code points
    (all below 256).  A [pathlib.Path] is carried as the string [str] gives
    for it.  Every program the command spawns or probes for and everything
    it logs or prints is recorded, in order, as an [event]; what it reads
    from the file system and gets back from its subprocesses is looked up
    in a [world].  Starting a process and loading the manifest are taken
    to succeed: the exceptions of the model are those the code of the
    command raises or names itself. *)

From Stdlib Require Import String Ascii List ZArith Bool Lia Sorted Permutation.
From Stdlib Require Import DecimalString DecimalZ DecimalPos.
Import ListNotations.

Open Scope list_scope.
Open Scope string_scope.


(** ** The operations of Python's [str] that the command uses *)

Module PyStr.

(** [s.startswith(p)] *)
Fixpoint startswith (p s : string) : bool :=
  match p, s with
  | EmptyString, _ => true
  | String _ _, EmptyString => false
  | String a p', String b s' => Ascii.eqb a b && startswith p' s'
  end.

(** [sub in s]: [sub] occurs in [s] at some offset. *)
Fixpoint contains (sub s : string) : bool :=
  startswith sub s ||
  match s with
  | EmptyString => false
  | String _ s' => contains sub s'
  end.

(** [s.split(sep)] for a separator of one character: the segments between
    the occurrences of [sep]; never the empty list. *)
Fixpoint split (sep : ascii) (s : string) : list string :=
  match s with
  | EmptyString => [EmptyString]
  | String c s' =>
      if Ascii.eqb c sep then EmptyString :: split sep s'
      else match split sep s' with
           | [] => [String c EmptyString]
           | seg :: segs => String c seg :: segs
           end
  end.

(** [str.isspace] on one character, for the code points below 256:
    tab to carriage return, the four separators 28..31, the space,
    NEL (133) and the no-break space (160). *)
Definition isspace (c : ascii) : bool :=
  let n := nat_of_ascii c in
  ((9 <=? n)%nat && (n <=? 13)%nat) || ((28 <=? n)%nat && (n <=? 32)%nat)
  || (n =? 133)%nat || (n =? 160)%nat.

(** [s.lstrip()] *)
Fixpoint lstrip (s : string) : string :=
  match s with
  | EmptyString => EmptyString
  | String c s' => if isspace c then lstrip s' else s
  end.

(** [s.rstrip()] *)
Fixpoint rstrip (s : string) : string :=
  match s with
  | EmptyString => EmptyString
  | String c s' =>
      match rstrip s' with
      | EmptyString => if isspace c then EmptyString else String c EmptyString
      | r => String c r
      end
  end.

(** [s.strip()] *)
Definition strip (s : string) : string := rstrip (lstrip s).

(** [sep.join(l)] *)
Definition join (sep : string) (l : list string) : string := String.concat sep l.

(** [str(n)] and [f'{n}'] for an [int]. *)
Definition of_int (n : Z) : string := NilZero.string_of_int (Z.to_int n).

(** [c] occurs in [s]. *)
Fixpoint has_char (c : ascii) (s : string) : bool :=
  match s with
  | EmptyString => false
  | String a s' => Ascii.eqb a c || has_char c s'
  end.

End PyStr.

(** ** Events, exceptions and the monad of the command *)

Inductive level := DEBUG | INFO | WARNING | ERROR.

(** An argument of a [%s] in a log message. *)
Inductive logarg :=
| AStr (s : string)
| AInt (n : Z)
| AList (l : list string).

Inductive event :=
| Which (binary : string)                       (* shutil.which(binary) *)
| Popen (argv : list string)                    (* subprocess.Popen(argv, ...) *)
| Run (argv : list string)                      (* cli.run(argv, ...) *)
| Log (lv : level) (msg : string) (args : list logarg)
| Printed (text : string).

Inductive exn :=
| TypeError
| AttributeError
| CalledProcessError (cmd : list string) (returncode : Z) (out err : option string)
| SystemExit (code : Z).

Inductive result (A : Type) :=
| Val (a : A)
| Exc (e : exn).

Arguments Val {A} a.
Arguments Exc {A} e.

(** A computation: the events it emitted, in order, and how it ended. *)
Definition M (A : Type) : Type := (list event * result A)%type.

Definition ret {A} (a : A) : M A := ([], Val a).

Definition raise {A} (e : exn) : M A := ([], Exc e).

Definition emit (e : event) : M unit := ([e], Val tt).

Definition bind {A B} (m : M A) (k : A -> M B) : M B :=
  match m with
  | (t, Val a) => let (t', r) := k a in ((t ++ t')%list, r)
  | (t, Exc e) => (t, Exc e)
  end.

(** [try: body / except ...: handler]; the handler answers [None] for the
    exceptions the [except] clause does not name. *)
Definition try_except {A} (body : M A) (handler : exn -> option (M A)) : M A :=
  match body with
  | (t, Val a) => (t, Val a)
  | (t, Exc e) =>
      match handler e with
      | Some (t', r) => ((t ++ t')%list, r)
      | None => (t, Exc e)
      end
  end.

Notation "x <- m ;; k" := (bind m (fun x => k))
  (at level 61, m at next level, right associativity).
Notation "m ;; k" := (bind m (fun _ => k))
  (at level 61, right associativity).

Definition log (lv : level) (msg : string) (args : list logarg) : M unit :=
  emit (Log lv msg args).

Definition print (text : string) : M unit := emit (Printed text).

Definition events {A} (m : M A) : list event := fst m.

Definition outcome {A} (m : M A) : result A := snd m.

(** ** The world outside the command *)

(** What a finished process left behind. *)
Record process := {
  p_returncode : Z;
  p_stdout : string;
  p_stderr : string
}.

(** [subprocess.CompletedProcess]; a stream that was not captured is [None]. *)
Record completed := {
  returncode : Z;
  stdout : option string;
  stderr : option string
}.

Record world := {
  (* shutil.which(binary) finds the executable on the search path *)
  which : string -> bool;
  (* qmk.path.normpath, as the string of the Path it returns *)
  normpath : string -> string;
  (* json.load of $HOME/files.json *)
  files_json : list string;
  (* qmk.c_parse.c_source_files(dirs) *)
  c_source_files : list string -> list string;
  (* os.path.exists(file) *)
  path_exists : string -> bool;
  (* what the process started from argv writes to its stdout pipe *)
  popen_stdout : list string -> string;
  (* the process run to its end from argv, fed stdin *)
  run : list string -> option string -> process
}.

(** [str] leaves the string of a path as it is. *)
Definition str (file : string) : string := file.

(** What Python prints or logs for a value that may be [None]. *)
Definition str_opt (o : option string) : string :=
  match o with
  | Some s => s
  | None => "None"
  end.

(** The right operand of the [+] in [cformat_run]: a [list], or the iterator
    that [map(f, l)] returns. *)
Inductive pyobj :=
| PList (items : list string)
| PMap (items : list string).

Definition py_map (f : string -> string) (l : list string) : pyobj :=
  PMap (List.map f l).

(** [l + r] for a list [l]: [list.__add__] takes a list and nothing else, and
    the iterator of [map] has no [__radd__]. *)
Definition list_add (l : list string) (r : pyobj) : M (list string) :=
  match r with
  | PList r' => ret (l ++ r')%list
  | PMap _ => raise TypeError
  end.

(** [bool(l)] for a list, negated: [not l]. *)
Definition is_empty {A} (l : list A) : bool :=
  match l with
  | [] => true
  | _ :: _ => false
  end.

Definition nl : ascii := ascii_of_nat 10.

Definition dquote : string := String (ascii_of_nat 34) EmptyString.

(** ** The module's constants *)

Definition c_file_suffixes : list string := ["c"; "h"; "cpp"].

Definition core_dirs : list string := ["drivers"; "quantum"; "tests"; "tmk_core"; "platforms"].

Definition ignored : list string :=
  ["tmk_core/protocol/usb_hid"; "quantum/template"; "platforms/chibios"].

(** [x in t] for a tuple of strings. *)
Definition str_in (x : string) (t : list string) : bool := existsb (String.eqb x) t.

(** [file.split('.')[-1]]; [split] never returns the empty list. *)
Definition suffix (file : string) : string := last (PyStr.split "." file) EmptyString.

(** [file.split('.')[-1] in c_file_suffixes] *)
Definition has_c_suffix (file : string) : bool := str_in (suffix file) c_file_suffixes.

(** [any(i in str(file) for i in ignored)] *)
Definition in_ignored_dir (file : string) : bool :=
  existsb (fun i => PyStr.contains i file) ignored.

(** [any([file.startswith(ignore) for ignore in ignored])] *)
Definition starts_ignored (file : string) : bool :=
  existsb (fun ignore => PyStr.startswith ignore file) ignored.

(** The list comprehension of the [--ci] branch. *)
Definition changeset_files (all_changed_files : list string) : list string :=
  filter has_c_suffix all_changed_files.

(** The list comprehension of the [--all-files] branch. *)
Definition unignored_files (all_files : list string) : list string :=
  filter (fun file => negb (in_ignored_dir file)) all_files.

Section Command.

Variable w : world.

(** [cli.run(argv, stdin=..., check=..., capture_output=...)]: runs the
    process to its end; with [check] a non-zero exit status raises
    [CalledProcessError]. *)
Definition cli_run (argv : list string) (stdin : option string)
           (check capture_output : bool) : M completed :=
  emit (Run argv) ;;
  let p := run w argv stdin in
  let out := if capture_output then Some (p_stdout p) else None in
  let err := if capture_output then Some (p_stderr p) else None in
  if check && negb (p_returncode p =? 0)%Z
  then raise (CalledProcessError argv (p_returncode p) out err)
  else ret {| returncode := p_returncode p; stdout := out; stderr := err |}.

(** The [for clang_version in [7, 8, 9, 10]] loop of [find_clang_format]. *)
Fixpoint find_clang_format_loop (versions : list Z) : M string :=
  match versions with
  | [] => ret "clang-format"
  | clang_version :: rest =>
      let binary := "clang-format-" ++ PyStr.of_int clang_version in
      emit (Which binary) ;;
      if which w binary then ret binary else find_clang_format_loop rest
  end.

Definition find_clang_format : M string :=
  find_clang_format_loop [7; 8; 9; 10]%Z.

(** The [for file in files] loop of [find_diffs], from the current value
    of [found_diffs]. *)
Fixpoint find_diffs_loop (files : list string) (found_diffs : bool) : M bool :=
  match files with
  | [] => ret found_diffs
  | file :: rest =>
      log DEBUG "Checking for changes in %s" [AStr file] ;;
      binary <- find_clang_format ;;
      emit (Popen [binary; file]) ;;
      let clang_format_stdout := popen_stdout w [binary; file] in
      diff <- cli_run ["diff"; "-u"; "--label=a/" ++ file; "--label=b/" ++ file; str file; "-"]
                      (Some clang_format_stdout) false true ;;
      if negb (returncode diff =? 0)%Z
      then print (str_opt (stdout diff)) ;; find_diffs_loop rest true
      else find_diffs_loop rest found_diffs
  end.

Definition find_diffs (files : list string) : M bool :=
  find_diffs_loop files false.

(** What the command returns: [True], [False], or an exit status. *)
Inductive retval :=
| RBool (b : bool)
| RInt (n : Z).

Definition cformat_run (files : list string) : M retval :=
  binary <- find_clang_format ;;
  let clang_format := [binary; "-i"] in
  try_except
    (argv <- list_add clang_format (py_map str files) ;;
     cli_run argv None true false ;;
     log INFO "Successfully formatted the C code." [] ;;
     ret (RBool true))
    (fun e =>
       match e with
       | CalledProcessError cmd rc out err =>
           Some (log ERROR "Error formatting C code!" [] ;;
                 log DEBUG "%s exited with returncode %s" [AList cmd; AInt rc] ;;
                 log DEBUG "STDOUT:" [] ;;
                 log DEBUG (str_opt out) [] ;;
                 log DEBUG "STDERR:" [] ;;
                 log DEBUG (str_opt err) [] ;;
                 ret (RBool false))
       | _ => None
       end).

(** The parsed arguments, [cli.args]. *)
Record args := {
  ci : bool;
  dry_run : bool;
  base_branch : string;
  all_files : bool;
  files : list string
}.

(** The command line before argparse applies [type=normpath] to each
    positional file name. *)
Record command_line := {
  opt_ci : bool;
  opt_dry_run : bool;
  opt_base_branch : string;
  opt_all_files : bool;
  positional : list string
}.

Definition parse_args (cl : command_line) : args :=
  {| ci := opt_ci cl;
     dry_run := opt_dry_run cl;
     base_branch := opt_base_branch cl;
     all_files := opt_all_files cl;
     files := List.map (normpath w) (positional cl) |}.

(** The [for file in git_diff.stdout.strip().split('\n')] loop, from the
    current value of [files]. *)
Fixpoint changed_files_loop (lines : list string) (files : list string) : list string :=
  match lines with
  | [] => files
  | file :: rest =>
      if negb (starts_ignored file)
      then if path_exists w file && has_c_suffix file
           then changed_files_loop rest (files ++ [file])%list
           else changed_files_loop rest files
      else changed_files_loop rest files
  end.

Definition no_files_message : string :=
  "No changed files detected. Use " ++ dquote ++ "qmk cformat -a" ++ dquote
  ++ " to format all files".

(** How the first half of [cformat] ends when it neither raises nor
    exits: with the list [files], or with a [return]. *)
Inductive selection :=
| Selected (files : list string)
| Returned (r : retval).

(** [cformat], lines 80 to 117: find the list of files to format. *)
Definition select_files (a : args) : M selection :=
  if ci a then
    (if negb (is_empty (files a)) || all_files a
     then log WARNING "Filename or -a passed with --ci, only formatting CI files." []
     else ret tt) ;;
    let all_changed_files := files_json w in
    let files := changeset_files all_changed_files in
    if is_empty files then
      log INFO "No C files in changeset: %s" [AStr (PyStr.join ", " all_changed_files)] ;;
      raise (SystemExit 0)
    else ret (Selected files)
  else if negb (is_empty (files a)) then
    let files := files a in
    (if all_files a
     then log WARNING "Filenames passed with -a, only formatting: %s"
              [AStr (PyStr.join "," (List.map str files))]
     else ret tt) ;;
    ret (Selected files)
  else if all_files a then
    let all_files := c_source_files w core_dirs in
    ret (Selected (unignored_files all_files))
  else
    let git_diff_cmd := (["git"; "diff"; "--name-only"; base_branch a] ++ core_dirs)%list in
    git_diff <- cli_run git_diff_cmd None false true ;;
    if negb (returncode git_diff =? 0)%Z then
      log ERROR "Error running %s" [AList git_diff_cmd] ;;
      print (str_opt (stderr git_diff)) ;;
      ret (Returned (RInt (returncode git_diff)))
    else
      match stdout git_diff with
      | None => raise AttributeError
      | Some out =>
          ret (Selected (changed_files_loop (PyStr.split nl (PyStr.strip out)) []))
      end.

(** [cformat], lines 119 to 128: the sanity check, then the dry run or
    the formatting. *)
Definition process_files (a : args) (files : list string) : M retval :=
  if is_empty files then
    log ERROR no_files_message [] ;;
    ret (RBool false)
  else if dry_run a then
    found <- find_diffs files ;;
    ret (RBool (negb found))
  else cformat_run files.

Definition cformat (a : args) : M retval :=
  sel <- select_files a ;;
  match sel with
  | Returned r => ret r
  | Selected files => process_files a files
  end.

End Command.

(** Modelled from the spec: the exit status the calling CLI framework, which
    is not part of this module, makes of the returned value; [True] is 0,
    [False] is non-zero (1 here), and an [int] is taken as the status. *)
Definition exit_status (r : retval) : Z :=
  match r with
  | RBool true => 0
  | RBool false => 1
  | RInt n => n
  end.

(** ** Vocabulary of the statements *)

(** The name [find_clang_format] probes for version [v]. *)
Definition binary_name (v : Z) : string := "clang-format-" ++ PyStr.of_int v.

(** The first of [names] that [found] accepts, or [fallback]. *)
Fixpoint first_found (found : string -> bool) (names : list string) (fallback : string) : string :=
  match names with
  | [] => fallback
  | name :: rest => if found name then name else first_found found rest fallback
  end.

(** The names looked up on the way: all up to and including the first that
    [found] accepts. *)
Fixpoint probed (found : string -> bool) (names : list string) : list string :=
  match names with
  | [] => []
  | name :: rest => name :: (if found name then [] else probed found rest)
  end.

(** The names [find_clang_format] probes, in its order. *)
Definition versioned_names : list string :=
  ["clang-format-7"; "clang-format-8"; "clang-format-9"; "clang-format-10"].

(** The formatter [find_clang_format] settles on in [w]. *)
Definition clang_format_binary (w : world) : string :=
  first_found (which w) versioned_names "clang-format".

(** The probes one call of [find_clang_format] makes in [w]. *)
Definition clang_format_probes (w : world) : list event :=
  List.map Which (probed (which w) versioned_names).

(** The command line of the diff [find_diffs] runs for [file]. *)
Definition diff_argv (file : string) : list string :=
  ["diff"; "-u"; "--label=a/" ++ file; "--label=b/" ++ file; file; "-"].

(** The diff of [file] against what the formatter prints for it. *)
Definition diff_of (w : world) (file : string) : process :=
  run w (diff_argv file) (Some (popen_stdout w [clang_format_binary w; file])).

(** [file] drifted: its diff exits non-zero. *)
Definition drifted (w : world) (file : string) : bool :=
  negb (p_returncode (diff_of w file) =? 0)%Z.

(** The events of the check of one file. *)
Definition check_events (w : world) (file : string) : list event :=
  (Log DEBUG "Checking for changes in %s" [AStr file]
   :: clang_format_probes w
   ++ [Popen [clang_format_binary w; file]; Run (diff_argv file)]
   ++ (if drifted w file then [Printed (p_stdout (diff_of w file))] else []))%list.

(** The command line of the version-control diff. *)
Definition git_diff_argv (base : string) : list string :=
  ["git"; "diff"; "--name-only"; base; "drivers"; "quantum"; "tests"; "tmk_core"; "platforms"].

(** The paths the loop of the branch-diff mode goes through. *)
Definition reported_paths (out : string) : list string :=
  PyStr.split nl (PyStr.strip out).

(** The test a reported path has to pass in the branch-diff mode. *)
Definition kept_changed (w : world) (file : string) : bool :=
  negb (starts_ignored file) && (path_exists w file && has_c_suffix file).

(** The command lines of the processes a run started, in order. *)
Fixpoint processes (t : list event) : list (list string) :=
  match t with
  | [] => []
  | Popen argv :: t' => argv :: processes t'
  | Run argv :: t' => argv :: processes t'
  | _ :: t' => processes t'
  end.

(** The texts a run printed, in order. *)
Fixpoint printed (t : list event) : list string :=
  match t with
  | [] => []
  | Printed text :: t' => text :: printed t'
  | _ :: t' => printed t'
  end.

(** The arguments [a] with [--ci] alone: no file name and no [-a]. *)
Definition ci_only (a : args) : args :=
  {| ci := true; dry_run := dry_run a; base_branch := base_branch a;
     all_files := false; files := [] |}.

(** The paths [ps] with a newline between each two. *)
Definition joined (ps : list string) : string := String.concat (String nl EmptyString) ps.

(** Weakly descending. *)
Definition descending (vs : list Z) : Prop := StronglySorted Z.ge vs.

(** A command that failed returned [False] or a non-zero status. *)
Definition failed (r : retval) : bool := negb (exit_status r =? 0)%Z.

(** ** Sample worlds *)

Definition quiet_process : process :=
  {| p_returncode := 0; p_stdout := EmptyString; p_stderr := EmptyString |}.

(** A world with nothing on the search path, no file on disk, and
    subprocesses that print nothing and exit 0. *)
Definition bare_world : world :=
  {| which := fun _ => false;
     normpath := fun p => "/qmk_firmware/" ++ p;
     files_json := [];
     c_source_files := fun _ => [];
     path_exists := fun _ => false;
     popen_stdout := fun _ => EmptyString;
     run := fun _ _ => quiet_process |}.

Definition with_which (found : string -> bool) (w : world) : world :=
  {| which := found;
     normpath := normpath w;
     files_json := files_json w;
     c_source_files := c_source_files w;
     path_exists := path_exists w;
     popen_stdout := popen_stdout w;
     run := run w |}.

Definition with_files_json (manifest : list string) (w : world) : world :=
  {| which := which w;
     normpath := normpath w;
     files_json := manifest;
     c_source_files := c_source_files w;
     path_exists := path_exists w;
     popen_stdout := popen_stdout w;
     run := run w |}.

Definition with_c_source_files (all : list string) (w : world) : world :=
  {| which := which w;
     normpath := normpath w;
     files_json := files_json w;
     c_source_files := fun _ => all;
     path_exists := path_exists w;
     popen_stdout := popen_stdout w;
     run := run w |}.

Definition with_path_exists (ex : string -> bool) (w : world) : world :=
  {| which := which w;
     normpath := normpath w;
     files_json := files_json w;
     c_source_files := c_source_files w;
     path_exists := ex;
     popen_stdout := popen_stdout w;
     run := run w |}.

(** Search paths with one and with two of the versioned formatters. *)
Definition only_10 (b : string) : bool := String.eqb b "clang-format-10".

Definition only_7_and_10 (b : string) : bool :=
  String.eqb b "clang-format-7" || String.eqb b "clang-format-10".

(** [git diff] ends as [git]; a diff exits 1 for the files [drift] names and
    0 for the others. *)
Definition with_run (git : process) (drift : string -> bool) (w : world) : world :=
  {| which := which w;
     normpath := normpath w;
     files_json := files_json w;
     c_source_files := c_source_files w;
     path_exists := path_exists w;
     popen_stdout := popen_stdout w;
     run := fun argv _ =>
       match argv with
       | "git" :: _ => git
       | ["diff"; _; _; _; file; _] =>
           {| p_returncode := if drift file then 1 else 0;
              p_stdout := "--- a/" ++ file;
              p_stderr := EmptyString |}
       | _ => quiet_process
       end |}.

(** What [git diff --name-only] prints for the paths [l]: one per line. *)
Fixpoint lines (l : list string) : string :=
  match l with
  | [] => EmptyString
  | p :: rest => p ++ String nl (lines rest)
  end.

Definition mk_args (ci dry_run all_files : bool) (files : list string) : args :=
  {| ci := ci; dry_run := dry_run; base_branch := "origin/master";
     all_files := all_files; files := files |}.

(** ** Facts about the string operations *)

Module PyStrFacts.
Import PyStr.

Lemma startswith_app (p r : string) : startswith p (p ++ r) = true.
Proof.
  induction p as [|a p IH]; simpl.
  - reflexivity.
  - now rewrite Ascii.eqb_refl.
Qed.

Lemma startswith_spec (p s : string) :
  startswith p s = true <-> exists r, s = p ++ r.
Proof.
  split.
  - revert s. induction p as [|a p IH]; intros s H.
    + now exists s.
    + destruct s as [|b s]; simpl in H; [discriminate|].
      apply andb_true_iff in H. destruct H as [Hab Hps].
      apply Ascii.eqb_eq in Hab. subst b.
      destruct (IH s Hps) as [r ->]. now exists r.
  - intros [r ->]. apply startswith_app.
Qed.

Lemma startswith_contains (p s : string) :
  startswith p s = true -> contains p s = true.
Proof.
  intros H. destruct s; simpl; rewrite H; reflexivity.
Qed.

Lemma contains_spec (sub s : string) :
  contains sub s = true <-> exists a b, s = a ++ sub ++ b.
Proof.
  split.
  - induction s as [|c s IH]; simpl; intros H.
    + rewrite orb_false_r in H. apply startswith_spec in H.
      destruct H as [r Hr]. now exists EmptyString, r.
    + apply orb_true_iff in H. destruct H as [H|H].
      * apply startswith_spec in H. destruct H as [r Hr].
        now exists EmptyString, r.
      * destruct (IH H) as (a & b & ->). now exists (String c a), b.
  - intros (a & b & ->). induction a as [|c a IH].
    + change (contains sub (sub ++ b) = true).
      apply startswith_contains, startswith_app.
    + change (startswith sub (String c (a ++ sub ++ b))
              || contains sub (a ++ sub ++ b) = true).
      rewrite IH. apply orb_true_r.
Qed.

Lemma split_not_nil (sep : ascii) (s : string) : split sep s <> [].
Proof.
  destruct s as [|c s]; simpl; [discriminate|].
  destruct (Ascii.eqb c sep); [discriminate|].
  destruct (split sep s); discriminate.
Qed.

Lemma split_no_sep (sep : ascii) (s : string) :
  has_char sep s = false -> split sep s = [s].
Proof.
  induction s as [|c s IH]; simpl; intros H.
  - reflexivity.
  - apply orb_false_iff in H. destruct H as [Hc Hs].
    rewrite Hc, (IH Hs). reflexivity.
Qed.

(** Splitting distributes over a separator. *)
Lemma split_app (sep : ascii) (pre rest : string) :
  split sep (pre ++ String sep rest) = (split sep pre ++ split sep rest)%list.
Proof.
  induction pre as [|c pre IH]; simpl.
  - now rewrite Ascii.eqb_refl.
  - rewrite IH. destruct (Ascii.eqb c sep); [reflexivity|].
    destruct (split sep pre) as [|seg segs] eqn:E; [|reflexivity].
    exfalso. exact (split_not_nil _ _ E).
Qed.

Lemma last_app_not_nil {A} (l l' : list A) (d : A) :
  l' <> [] -> last (l ++ l') d = last l' d.
Proof.
  intros H. induction l as [|x l IH]; [reflexivity|].
  simpl. rewrite IH. destruct (l ++ l')%list eqn:E; [|reflexivity].
  apply app_eq_nil in E. tauto.
Qed.

(** Everything up to a separator leaves the last segment as it is. *)
Lemma last_split_app (sep : ascii) (pre rest : string) :
  last (split sep (pre ++ String sep rest)) EmptyString
  = last (split sep rest) EmptyString.
Proof.
  rewrite split_app. apply last_app_not_nil, split_not_nil.
Qed.

(** The last segment is the text after the last separator. *)
Lemma last_split_after (sep : ascii) (pre suf : string) :
  has_char sep suf = false ->
  last (split sep (pre ++ String sep suf)) EmptyString = suf.
Proof.
  intros H. rewrite last_split_app, (split_no_sep _ _ H). reflexivity.
Qed.

Lemma has_char_cut (sep : ascii) (s : string) :
  has_char sep s = true ->
  exists pre suf, s = pre ++ String sep suf /\ has_char sep suf = false.
Proof.
  induction s as [|c s IH]; simpl; intros H; [discriminate|].
  destruct (has_char sep s) eqn:Hs.
  - destruct (IH eq_refl) as (pre & suf & -> & Hsuf).
    now exists (String c pre), suf.
  - rewrite orb_false_r in H. apply Ascii.eqb_eq in H. subst c.
    now exists EmptyString, s.
Qed.

Lemma append_assoc (a b c : string) : (a ++ b) ++ c = a ++ (b ++ c).
Proof. induction a as [|x a IH]; cbn; [reflexivity | now rewrite IH]. Qed.

Lemma length_lstrip (s : string) : String.length (lstrip s) <= String.length s.
Proof.
  induction s as [|c s IH]; cbn; [lia|].
  destruct (isspace c); cbn; lia.
Qed.

(** A string that [lstrip] leaves alone starts with no whitespace. *)
Lemma lstrip_fixed (c : ascii) (s : string) :
  lstrip (String c s) = String c s -> isspace c = false.
Proof.
  cbn. destruct (isspace c); [|reflexivity].
  intros H. pose proof (length_lstrip s) as L. rewrite H in L. cbn in L. lia.
Qed.

Lemma lstrip_app (p x : string) :
  p <> EmptyString -> lstrip p = p -> lstrip (p ++ x) = p ++ x.
Proof.
  destruct p as [|c p]; [congruence|]. intros _ H.
  apply lstrip_fixed in H. cbn. now rewrite H.
Qed.

Lemma rstrip_app (u x : string) :
  rstrip x <> EmptyString -> rstrip (u ++ x) = u ++ rstrip x.
Proof.
  intros Hx. induction u as [|c u IH]; [reflexivity|].
  cbn. rewrite IH. destruct (u ++ rstrip x) eqn:E; [|reflexivity].
  destruct u; cbn in E; [congruence | discriminate].
Qed.

Lemma rstrip_newline (s : string) :
  rstrip (s ++ String nl EmptyString) = rstrip s.
Proof.
  induction s as [|c s IH]; [reflexivity|].
  cbn [append rstrip]. rewrite IH. reflexivity.
Qed.

Lemma last_cons_default {A} (q p : A) (ps : list A) : last (q :: ps) p = last ps q.
Proof.
  revert q p. induction ps as [|s ps IH]; intros q p; [reflexivity|].
  change (last (q :: s :: ps) p) with (last (s :: ps) p).
  now rewrite (IH s p), (IH s q).
Qed.

End PyStrFacts.

(** ** What the branch-diff mode reads off the output of the diff *)

Section DiffOutput.

Import PyStr PyStrFacts.

Lemma joined_cons2 (p q : string) (ps : list string) :
  joined (p :: q :: ps) = p ++ String nl (joined (q :: ps)).
Proof. reflexivity. Qed.

Lemma lines_joined (p : string) (ps : list string) :
  lines (p :: ps) = joined (p :: ps) ++ String nl EmptyString.
Proof.
  revert p. induction ps as [|q ps IH]; intros p.
  - reflexivity.
  - rewrite joined_cons2. cbn [lines] in *. rewrite IH, append_assoc. reflexivity.
Qed.

Lemma joined_not_empty (p : string) (ps : list string) :
  last ps p <> EmptyString -> joined (p :: ps) <> EmptyString.
Proof.
  destruct ps as [|q ps]; [exact (fun H => H)|].
  intros _. rewrite joined_cons2. destruct p; discriminate.
Qed.

Lemma rstrip_joined (p : string) (ps : list string) :
  last ps p <> EmptyString -> rstrip (last ps p) = last ps p ->
  rstrip (joined (p :: ps)) = joined (p :: ps).
Proof.
  revert p. induction ps as [|q ps IH]; intros p Hne Hfix; [exact Hfix|].
  assert (Hq : last ps q = last (q :: ps) p) by (symmetry; apply last_cons_default).
  rewrite <- Hq in Hne, Hfix.
  rewrite joined_cons2.
  change (p ++ String nl (joined (q :: ps)))
    with (p ++ (String nl EmptyString ++ joined (q :: ps))).
  rewrite <- append_assoc, rstrip_app; rewrite (IH q Hne Hfix); [reflexivity|].
  now apply joined_not_empty.
Qed.

Lemma split_joined (p : string) (ps : list string) :
  Forall (fun q => has_char nl q = false) (p :: ps) ->
  split nl (joined (p :: ps)) = p :: ps.
Proof.
  revert p. induction ps as [|q ps IH]; intros p H.
  - apply split_no_sep. now inversion H.
  - rewrite joined_cons2, split_app.
    inversion H as [|? ? Hp Hrest]; subst.
    rewrite (split_no_sep _ _ Hp), (IH q Hrest). reflexivity.
Qed.

(** One path per line, none with a newline in it, the first not empty and
    with no whitespace at its start, the last not empty and with none at
    its end: the loop goes through exactly these paths. *)
Lemma reported_paths_lines (p : string) (ps : list string) :
  Forall (fun q => has_char nl q = false) (p :: ps) ->
  p <> EmptyString -> lstrip p = p ->
  last ps p <> EmptyString -> rstrip (last ps p) = last ps p ->
  reported_paths (lines (p :: ps)) = p :: ps.
Proof.
  intros Hnl Hp Hl Hne Hr. unfold reported_paths, strip.
  cbn [lines]. rewrite (lstrip_app p _ Hp Hl).
  change (p ++ String nl (lines ps)) with (lines (p :: ps)).
  rewrite lines_joined, rstrip_newline, (rstrip_joined _ _ Hne Hr).
  now apply split_joined.
Qed.

End DiffOutput.

(** ** Facts about the command *)

Section CommandFacts.

Variable w : world.

Lemma find_clang_format_loop_eq (versions : list Z) :
  find_clang_format_loop w versions
  = (List.map Which (probed (which w) (List.map binary_name versions)),
     Val (first_found (which w) (List.map binary_name versions) "clang-format")).
Proof.
  induction versions as [|v versions IH]; [reflexivity|].
  cbn [find_clang_format_loop List.map probed first_found].
  fold (binary_name v). unfold bind, emit.
  destruct (which w (binary_name v)); [reflexivity|].
  rewrite IH. reflexivity.
Qed.

Lemma find_clang_format_eq :
  find_clang_format w = (clang_format_probes w, Val (clang_format_binary w)).
Proof. apply find_clang_format_loop_eq. Qed.

Lemma find_diffs_loop_eq (files : list string) (found_diffs : bool) :
  find_diffs_loop w files found_diffs
  = (flat_map (check_events w) files,
     Val (found_diffs || existsb (drifted w) files)).
Proof.
  revert found_diffs. induction files as [|file files IH]; intros found_diffs.
  - cbn. now rewrite orb_false_r.
  - cbn [find_diffs_loop flat_map existsb].
    rewrite find_clang_format_eq.
    unfold check_events, drifted, diff_of, diff_argv, cli_run, log, print, bind, emit, ret.
    cbn [andb returncode stdout str_opt].
    destruct (p_returncode _ =? 0)%Z; cbn [negb]; rewrite IH; cbn [orb app];
      rewrite <- ?app_assoc; cbn [app].
    + reflexivity.
    + rewrite orb_true_r. reflexivity.
Qed.

Lemma changed_files_loop_eq (paths files : list string) :
  changed_files_loop w paths files = (files ++ filter (kept_changed w) paths)%list.
Proof.
  revert files. induction paths as [|file paths IH]; intros files.
  - cbn. now rewrite app_nil_r.
  - cbn [changed_files_loop filter].
    assert (E : kept_changed w file
                = negb (starts_ignored file) && (path_exists w file && has_c_suffix file))
      by reflexivity.
    rewrite E. clear E.
    destruct (starts_ignored file); cbn [negb andb]; [apply IH|].
    destruct (path_exists w file && has_c_suffix file); rewrite IH; [|reflexivity].
    now rewrite <- app_assoc.
Qed.

Lemma git_diff_cmd_eq (base : string) :
  (["git"; "diff"; "--name-only"; base] ++ core_dirs)%list = git_diff_argv base.
Proof. reflexivity. Qed.

Lemma select_changeset (a : args) :
  ci a = true ->
  select_files w a
  = ((if negb (is_empty (files a)) || all_files a
      then [Log WARNING "Filename or -a passed with --ci, only formatting CI files." []]
      else [])
     ++ (if is_empty (changeset_files (files_json w))
         then [Log INFO "No C files in changeset: %s" [AStr (PyStr.join ", " (files_json w))]]
         else []),
     if is_empty (changeset_files (files_json w))
     then Exc (SystemExit 0)
     else Val (Selected (changeset_files (files_json w))))%list.
Proof.
  intros Hci. unfold select_files. rewrite Hci.
  destruct (negb (is_empty (files a)) || all_files a);
    destruct (is_empty (changeset_files (files_json w))); reflexivity.
Qed.

Lemma map_str (l : list string) : List.map str l = l.
Proof. apply map_id. Qed.

Lemma select_explicit (a : args) :
  ci a = false -> files a <> [] ->
  select_files w a
  = (if all_files a
     then [Log WARNING "Filenames passed with -a, only formatting: %s"
               [AStr (PyStr.join "," (files a))]]
     else [],
     Val (Selected (files a))).
Proof.
  intros Hci Hfiles. unfold select_files. rewrite Hci, map_str.
  destruct (files a) as [|f fs] eqn:E; [congruence|]. cbn [is_empty negb].
  destruct (all_files a); reflexivity.
Qed.

Lemma select_all_files (a : args) :
  ci a = false -> files a = [] -> all_files a = true ->
  select_files w a = ([], Val (Selected (unignored_files (c_source_files w core_dirs)))).
Proof.
  intros Hci Hfiles Hall. unfold select_files. rewrite Hci, Hfiles, Hall. reflexivity.
Qed.

Lemma select_branch_diff (a : args) :
  ci a = false -> files a = [] -> all_files a = false ->
  p_returncode (run w (git_diff_argv (base_branch a)) None) = 0%Z ->
  select_files w a
  = ([Run (git_diff_argv (base_branch a))],
     Val (Selected (filter (kept_changed w)
                      (reported_paths (p_stdout (run w (git_diff_argv (base_branch a)) None)))))).
Proof.
  intros Hci Hfiles Hall Hrc. unfold select_files. rewrite Hci, Hfiles, Hall.
  cbn [is_empty negb]. rewrite git_diff_cmd_eq.
  unfold cli_run, bind, emit, ret. cbn [andb returncode stdout].
  rewrite Hrc. cbn [Z.eqb negb]. rewrite changed_files_loop_eq. reflexivity.
Qed.

Lemma select_branch_diff_failed (a : args) :
  ci a = false -> files a = [] -> all_files a = false ->
  p_returncode (run w (git_diff_argv (base_branch a)) None) <> 0%Z ->
  select_files w a
  = ([Run (git_diff_argv (base_branch a));
      Log ERROR "Error running %s" [AList (git_diff_argv (base_branch a))];
      Printed (p_stderr (run w (git_diff_argv (base_branch a)) None))],
     Val (Returned (RInt (p_returncode (run w (git_diff_argv (base_branch a)) None))))).
Proof.
  intros Hci Hfiles Hall Hrc. unfold select_files. rewrite Hci, Hfiles, Hall.
  cbn [is_empty negb]. rewrite git_diff_cmd_eq.
  unfold cli_run, bind, emit, ret, log, print. cbn [andb returncode stderr].
  apply Z.eqb_neq in Hrc. rewrite Hrc. reflexivity.
Qed.

(** The selection starts no process but the version-control diff. *)
Lemma select_processes (a : args) (argv : list string) :
  In argv (processes (events (select_files w a))) -> argv = git_diff_argv (base_branch a).
Proof.
  destruct (ci a) eqn:Hci.
  - rewrite (select_changeset a Hci).
    destruct (negb (is_empty (files a)) || all_files a);
      destruct (is_empty (changeset_files (files_json w))); cbn; tauto.
  - destruct (files a) as [|f fs] eqn:Hfiles.
    + destruct (all_files a) eqn:Hall.
      * rewrite (select_all_files a Hci Hfiles Hall). cbn. tauto.
      * destruct (Z.eq_dec (p_returncode (run w (git_diff_argv (base_branch a)) None)) 0) as [Hrc|Hrc].
        -- rewrite (select_branch_diff a Hci Hfiles Hall Hrc). cbn. intros [H|[]]. now symmetry.
        -- rewrite (select_branch_diff_failed a Hci Hfiles Hall Hrc). cbn. intros [H|[]]. now symmetry.
    + assert (Hne : files a <> []) by (rewrite Hfiles; discriminate).
      rewrite (select_explicit a Hci Hne). destruct (all_files a); cbn; tauto.
Qed.

Lemma processes_app (t t' : list event) :
  processes (t ++ t') = (processes t ++ processes t')%list.
Proof.
  induction t as [|e t IH]; [reflexivity|].
  destruct e; cbn; rewrite IH; reflexivity.
Qed.

Lemma cformat_run_eq (files : list string) :
  cformat_run w files = (clang_format_probes w, Exc TypeError).
Proof.
  unfold cformat_run. rewrite find_clang_format_eq.
  unfold bind, try_except, list_add, py_map, raise. cbn.
  now rewrite app_nil_r.
Qed.

End CommandFacts.

(** ** The string operations on small inputs *)

Example split_path : PyStr.split "." "src/a.tar.c" = ["src/a"; "tar"; "c"].
Proof. reflexivity. Qed.

Example split_trailing : PyStr.split "." "a." = ["a"; ""].
Proof. reflexivity. Qed.

Example split_empty : PyStr.split "." "" = [""].
Proof. reflexivity. Qed.

Example strip_output :
  PyStr.strip (String "010" (" quantum/a.c" ++ String "010" ("tests/b.h " ++ String "010" "")))
  = "quantum/a.c" ++ String "010" "tests/b.h".
Proof. reflexivity. Qed.

Example of_int_10 : PyStr.of_int 10 = "10".
Proof. reflexivity. Qed.


Example all_files_scenario :
  select_files (with_c_source_files ["quantum/template/x.c"; "quantum/core.c"] bare_world)
               (mk_args false false true [])
  = ([], Val (Selected ["quantum/core.c"])).
Proof. reflexivity. Qed.

(** ** The ignored directories *)

Lemma in_ignored_dir_spec (file : string) :
  in_ignored_dir file = true
  <-> exists i pre post, In i ignored /\ file = pre ++ i ++ post.
Proof.
  unfold in_ignored_dir. rewrite existsb_exists. split.
  - intros (i & Hi & Hc). apply PyStrFacts.contains_spec in Hc.
    destruct Hc as (pre & post & ->). now exists i, pre, post.
  - intros (i & pre & post & Hi & ->). exists i. split; [exact Hi|].
    apply PyStrFacts.contains_spec. now exists pre, post.
Qed.

Lemma starts_ignored_spec (file : string) :
  starts_ignored file = true <-> exists i post, In i ignored /\ file = i ++ post.
Proof.
  unfold starts_ignored. rewrite existsb_exists. split.
  - intros (i & Hi & Hs). apply PyStrFacts.startswith_spec in Hs.
    destruct Hs as (post & ->). now exists i, post.
  - intros (i & post & Hi & ->). exists i. split; [exact Hi|].
    apply PyStrFacts.startswith_app.
Qed.

(** ** Apply mode *)

(** C1, on the code: [cformat_run] adds the iterator of [map(str, files)] to
    a list, which raises [TypeError] before the formatter is started; the
    [except] clause names [CalledProcessError] only, so for every list of
    files the exception leaves [cformat_run], and at the apply-mode call
    with the one file [/qmk_firmware/quantum/quantum.c] it leaves [cformat]
    after the four lookups of the formatter, in a world where every
    process would have exited 0. *)
Theorem cformat_run_raises_TypeError :
  (forall (w : world) (files : list string),
      cformat_run w files = (clang_format_probes w, Exc TypeError)
      /\ processes (events (cformat_run w files)) = [])
  /\ cformat bare_world (mk_args false false false ["/qmk_firmware/quantum/quantum.c"])
     = ([Which "clang-format-7"; Which "clang-format-8";
         Which "clang-format-9"; Which "clang-format-10"],
        Exc TypeError).
Proof.
  split; [|reflexivity].
  intros w files. rewrite cformat_run_eq. split; [reflexivity|].
  unfold events, clang_format_probes. cbn [fst].
  induction (probed (which w) versioned_names) as [|n l IH]; [reflexivity|exact IH].
Qed.

(** ** The sanity check on the list of files *)

(** C2, as the claim states it, fails in the changeset mode: with a manifest
    that names no C file the list of files is empty, and the command ends
    by [exit(0)] after an INFO line, not by the error and [False]. *)
Lemma changeset_without_c_files_exits_zero :
  changeset_files (files_json (with_files_json ["README.md"; "docs/a.py"] bare_world)) = []
  /\ cformat (with_files_json ["README.md"; "docs/a.py"] bare_world)
             (mk_args true false false [])
     = ([Log INFO "No C files in changeset: %s" [AStr "README.md, docs/a.py"]],
        Exc (SystemExit 0)).
Proof. split; reflexivity. Qed.

(** C2, as amended: outside the changeset mode, when the selection ends with
    the empty list, the command logs the error that points to
    [qmk cformat -a], returns [False], and has started no process but the
    version-control diff of the selection; in the changeset mode an empty
    list ends the command by [exit(0)], after the INFO line that names the
    manifest (and the WARNING line when file names or [-a] were given), with
    no process started. *)
Theorem no_files_selected (w : world) (a : args) :
  (ci a = false ->
   forall t : list event,
     select_files w a = (t, Val (Selected [])) ->
     cformat w a = ((t ++ [Log ERROR no_files_message []])%list, Val (RBool false))
     /\ PyStr.contains "qmk cformat -a" no_files_message = true
     /\ failed (RBool false) = true
     /\ forall argv, In argv (processes (events (cformat w a))) ->
                     argv = git_diff_argv (base_branch a))
  /\ (ci a = true ->
      changeset_files (files_json w) = [] ->
      cformat w a
      = (((if negb (is_empty (files a)) || all_files a
           then [Log WARNING "Filename or -a passed with --ci, only formatting CI files." []]
           else [])
          ++ [Log INFO "No C files in changeset: %s"
                  [AStr (PyStr.join ", " (files_json w))]])%list,
         Exc (SystemExit 0))
      /\ outcome (cformat w a) = Exc (SystemExit 0)
      /\ processes (events (cformat w a)) = []).
Proof.
  split.
  - intros _ t Hsel.
    assert (E : cformat w a = ((t ++ [Log ERROR no_files_message []])%list, Val (RBool false))).
    { unfold cformat. rewrite Hsel. reflexivity. }
    split; [exact E|]. split; [reflexivity|]. split; [reflexivity|].
    intros argv. rewrite E. unfold events. cbn [fst].
    rewrite processes_app. cbn [processes]. rewrite app_nil_r.
    intros Hin. apply (select_processes w a). now rewrite Hsel.
  - intros Hci Hnone. unfold cformat. rewrite (select_changeset w a Hci), Hnone.
    cbn [is_empty]. destruct (negb (is_empty (files a)) || all_files a);
      (split; [reflexivity|]); split; reflexivity.
Qed.

Lemma no_files_selected_witness :
  cformat bare_world (mk_args false false true [])
  = ([Log ERROR no_files_message []], Val (RBool false))
  /\ cformat (with_files_json ["README.md"] bare_world) (mk_args true true false [])
     = ([Log INFO "No C files in changeset: %s" [AStr "README.md"]], Exc (SystemExit 0)).
Proof.
  split.
  - exact (proj1 (proj1 (no_files_selected bare_world (mk_args false false true []))
                    eq_refl [] eq_refl)).
  - exact (proj1 (proj2 (no_files_selected (with_files_json ["README.md"] bare_world)
                                           (mk_args true true false []))
                    eq_refl eq_refl)).
Defined.

(** ** The ignored directories in the two scanning modes *)

(** C3, as the claim states it, fails in the branch-diff mode: a changed
    path that has [quantum/template] inside it, not at its start, is kept. *)
Lemma branch_diff_keeps_inner_ignored_dir :
  select_files
    (with_path_exists (fun _ => true)
       (with_run {| p_returncode := 0;
                    p_stdout := lines ["tests/quantum/template/x.c"];
                    p_stderr := EmptyString |}
                 (fun _ => false) bare_world))
    (mk_args false false false [])
  = ([Run (git_diff_argv "origin/master")], Val (Selected ["tests/quantum/template/x.c"]))
  /\ PyStr.contains "quantum/template" "tests/quantum/template/x.c" = true
  /\ In "quantum/template" ignored.
Proof. split; [reflexivity|]. split; [reflexivity|]. cbn. tauto. Qed.

(** C3, as amended: the all-files mode leaves out every path that has an
    ignored entry anywhere in it, whatever its suffix; the branch-diff mode
    leaves out every path that starts with an ignored entry, whatever its
    suffix. *)
Theorem ignored_dirs_excluded (w : world) (a : args) (t : list event)
        (fs : list string) (p : string) :
  ci a = false -> files a = [] ->
  select_files w a = (t, Val (Selected fs)) ->
  (all_files a = true ->
   (exists i pre post, In i ignored /\ p = pre ++ i ++ post) -> ~ In p fs)
  /\ (all_files a = false ->
      (exists i post, In i ignored /\ p = i ++ post) -> ~ In p fs).
Proof.
  intros Hci Hfiles Hsel. split; intros Hall Hp Hin.
  - rewrite (select_all_files w a Hci Hfiles Hall) in Hsel.
    injection Hsel as _ <-.
    apply filter_In in Hin. destruct Hin as [_ Hkeep].
    apply in_ignored_dir_spec in Hp. rewrite Hp in Hkeep. discriminate.
  - destruct (Z.eq_dec (p_returncode (run w (git_diff_argv (base_branch a)) None)) 0)
      as [Hrc|Hrc].
    + rewrite (select_branch_diff w a Hci Hfiles Hall Hrc) in Hsel.
      injection Hsel as _ <-.
      apply filter_In in Hin. destruct Hin as [_ Hkeep].
      apply starts_ignored_spec in Hp. unfold kept_changed in Hkeep.
      rewrite Hp in Hkeep. discriminate.
    + rewrite (select_branch_diff_failed w a Hci Hfiles Hall Hrc) in Hsel.
      discriminate.
Qed.

Lemma ignored_dirs_excluded_witness :
  ~ In "quantum/template/x.c" ["quantum/core.c"]
  /\ ~ In "platforms/chibios/boards/board.c" ["quantum/a.h"].
Proof.
  split.
  - refine (proj1 (ignored_dirs_excluded
                     (with_c_source_files ["quantum/template/x.c"; "quantum/core.c"] bare_world)
                     (mk_args false false true []) [] ["quantum/core.c"]
                     "quantum/template/x.c" eq_refl eq_refl eq_refl) eq_refl _).
    exists "quantum/template", EmptyString, "/x.c". cbn. tauto.
  - refine (proj2 (ignored_dirs_excluded
                     (with_path_exists (fun _ => true)
                        (with_run {| p_returncode := 0;
                                     p_stdout := lines ["platforms/chibios/boards/board.c";
                                                        "quantum/a.h"];
                                     p_stderr := EmptyString |}
                                  (fun _ => false) bare_world))
                     (mk_args false true false [])
                     [Run (git_diff_argv "origin/master")] ["quantum/a.h"]
                     "platforms/chibios/boards/board.c" eq_refl eq_refl eq_refl) eq_refl _).
    exists "platforms/chibios", "/boards/board.c". cbn. tauto.
Defined.

(** ** The dry run *)

Lemma processes_probes (names : list string) : processes (List.map Which names) = [].
Proof. induction names as [|n names IH]; [reflexivity|exact IH]. Qed.

Lemma processes_check_events (w : world) (file : string) :
  processes (check_events w file) = [[clang_format_binary w; file]; diff_argv file].
Proof.
  unfold check_events. cbn [processes]. unfold clang_format_probes.
  rewrite processes_app, processes_probes. cbn [app processes].
  destruct (drifted w file); reflexivity.
Qed.

Lemma processes_checks (w : world) (files : list string) :
  processes (flat_map (check_events w) files)
  = flat_map (fun file => [[clang_format_binary w; file]; diff_argv file]) files.
Proof.
  induction files as [|file files IH]; [reflexivity|].
  cbn [flat_map]. rewrite processes_app, processes_check_events, IH. reflexivity.
Qed.





(** ** The suffix test *)

Lemma str_in_spec (x : string) (t : list string) : str_in x t = true <-> In x t.
Proof.
  unfold str_in. rewrite existsb_exists. split.
  - intros (y & Hy & E). apply String.eqb_eq in E. now subst y.
  - intros H. exists x. split; [exact H | apply String.eqb_refl].
Qed.

Lemma has_c_suffix_spec (file : string) :
  has_c_suffix file = true
  <-> suffix file = "c" \/ suffix file = "h" \/ suffix file = "cpp".
Proof.
  unfold has_c_suffix. rewrite str_in_spec. cbn. intuition congruence.
Qed.

(** The suffix of a path with a dot in it is the text after its last dot. *)
Lemma suffix_after_last_dot (pre suf : string) :
  PyStr.has_char "." suf = false -> suffix (pre ++ "." ++ suf) = suf.
Proof. intros H. unfold suffix. now apply PyStrFacts.last_split_after. Qed.

Lemma suffix_dotless (file : string) :
  PyStr.has_char "." file = false -> suffix file = file.
Proof.
  intros H. unfold suffix. now rewrite (PyStrFacts.split_no_sep _ _ H).
Qed.

(** ** The changeset mode *)

(** C5: with [--ci] the list of files is the manifest filtered, in its
    order, down to the entries whose suffix, the text after the last dot,
    is [c], [h] or [cpp]; the manifest [src/a.c], [src/a.py],
    [docs/readme.md] gives [src/a.c]; and when no entry passes, the command
    logs the INFO line with the manifest and ends by [exit(0)], no process
    started. *)
Theorem changeset_mode (w : world) (a : args) :
  ci a = true ->
  (changeset_files (files_json w) <> [] ->
   outcome (select_files w a) = Val (Selected (changeset_files (files_json w))))
  /\ changeset_files (files_json w)
     = filter (fun file => str_in (suffix file) ["c"; "h"; "cpp"]) (files_json w)
  /\ (forall file,
         In file (changeset_files (files_json w))
         <-> In file (files_json w)
             /\ (suffix file = "c" \/ suffix file = "h" \/ suffix file = "cpp"))
  /\ (forall pre suf,
         PyStr.has_char "." suf = false -> suffix (pre ++ "." ++ suf) = suf)
  /\ changeset_files ["src/a.c"; "src/a.py"; "docs/readme.md"] = ["src/a.c"]
  /\ (changeset_files (files_json w) = [] ->
      outcome (cformat w a) = Exc (SystemExit 0)
      /\ In (Log INFO "No C files in changeset: %s" [AStr (PyStr.join ", " (files_json w))])
            (events (cformat w a))
      /\ processes (events (cformat w a)) = []).
Proof.
  intros Hci. split; [|split; [|split; [|split; [|split]]]].
  - intros Hne. rewrite (select_changeset w a Hci).
    destruct (changeset_files (files_json w)); [congruence | reflexivity].
  - reflexivity.
  - intros file. unfold changeset_files. rewrite filter_In, has_c_suffix_spec. reflexivity.
  - exact suffix_after_last_dot.
  - reflexivity.
  - intros Hnone. unfold cformat. rewrite (select_changeset w a Hci), Hnone.
    cbn [is_empty]. destruct (negb (is_empty (files a)) || all_files a); cbn; tauto.
Qed.

Lemma changeset_mode_witness :
  outcome (select_files (with_files_json ["src/a.c"; "src/a.py"; "docs/readme.md"] bare_world)
                        (mk_args true false false []))
  = Val (Selected ["src/a.c"]).
Proof.
  refine (proj1 (changeset_mode
                   (with_files_json ["src/a.c"; "src/a.py"; "docs/readme.md"] bare_world)
                   (mk_args true false false []) eq_refl) _).
  discriminate.
Defined.

(** ** The explicit list of files *)

(** C6: without [--ci], the file names given on the command line, each put
    through [normpath], are the list of files, in their order and with no
    test of their suffix; with [-a] the only difference is one WARNING
    line that names them. *)
Theorem explicit_files_mode (w : world) (cl : command_line) :
  opt_ci cl = false -> positional cl <> [] ->
  select_files w (parse_args w cl)
  = (if opt_all_files cl
     then [Log WARNING "Filenames passed with -a, only formatting: %s"
               [AStr (PyStr.join "," (List.map (normpath w) (positional cl)))]]
     else [],
     Val (Selected (List.map (normpath w) (positional cl)))).
Proof.
  intros Hci Hpos.
  assert (Hne : files (parse_args w cl) <> []).
  { cbn. destruct (positional cl); [congruence | discriminate]. }
  rewrite (select_explicit w (parse_args w cl) Hci Hne). reflexivity.
Qed.

Lemma explicit_files_mode_witness :
  select_files bare_world
    (parse_args bare_world
       {| opt_ci := false; opt_dry_run := false; opt_base_branch := "origin/master";
          opt_all_files := true; positional := ["keyboards/b.py"; "quantum/a.c"] |})
  = ([Log WARNING "Filenames passed with -a, only formatting: %s"
          [AStr "/qmk_firmware/keyboards/b.py,/qmk_firmware/quantum/a.c"]],
     Val (Selected ["/qmk_firmware/keyboards/b.py"; "/qmk_firmware/quantum/a.c"])).
Proof.
  refine (explicit_files_mode bare_world
            {| opt_ci := false; opt_dry_run := false; opt_base_branch := "origin/master";
               opt_all_files := true; positional := ["keyboards/b.py"; "quantum/a.c"] |}
            eq_refl _).
  discriminate.
Defined.

(** ** The branch-diff mode *)

(** C8: in the branch-diff mode, when the version-control diff exits
    non-zero, the command logs the error with the command line, prints the
    captured standard error, and returns that exit status, a failure; the
    diff is the one process it has started, and neither the manifest, nor
    the enumeration of the sources, nor the formatter comes into it. *)
Theorem branch_diff_failure (w : world) (a : args) :
  ci a = false -> files a = [] -> all_files a = false ->
  p_returncode (run w (git_diff_argv (base_branch a)) None) <> 0%Z ->
  cformat w a
  = ([Run (git_diff_argv (base_branch a));
      Log ERROR "Error running %s" [AList (git_diff_argv (base_branch a))];
      Printed (p_stderr (run w (git_diff_argv (base_branch a)) None))],
     Val (RInt (p_returncode (run w (git_diff_argv (base_branch a)) None))))
  /\ failed (RInt (p_returncode (run w (git_diff_argv (base_branch a)) None))) = true
  /\ processes (events (cformat w a)) = [git_diff_argv (base_branch a)].
Proof.
  intros Hci Hfiles Hall Hrc.
  assert (E : cformat w a
              = ([Run (git_diff_argv (base_branch a));
                  Log ERROR "Error running %s" [AList (git_diff_argv (base_branch a))];
                  Printed (p_stderr (run w (git_diff_argv (base_branch a)) None))],
                 Val (RInt (p_returncode (run w (git_diff_argv (base_branch a)) None))))).
  { unfold cformat. rewrite (select_branch_diff_failed w a Hci Hfiles Hall Hrc). reflexivity. }
  split; [exact E|]. split.
  - unfold failed. cbn [exit_status]. now apply negb_true_iff, Z.eqb_neq.
  - rewrite E. reflexivity.
Qed.

Lemma branch_diff_failure_witness :
  cformat (with_c_source_files ["quantum/a.c"]
             (with_run {| p_returncode := 128; p_stdout := EmptyString;
                          p_stderr := "fatal: bad revision 'origin/master'" |}
                       (fun _ => true) bare_world))
          (mk_args false false false [])
  = ([Run (git_diff_argv "origin/master");
      Log ERROR "Error running %s" [AList (git_diff_argv "origin/master")];
      Printed "fatal: bad revision 'origin/master'"],
     Val (RInt 128)).
Proof.
  refine (proj1 (branch_diff_failure
                   (with_c_source_files ["quantum/a.c"]
                      (with_run {| p_returncode := 128; p_stdout := EmptyString;
                                   p_stderr := "fatal: bad revision 'origin/master'" |}
                                (fun _ => true) bare_world))
                   (mk_args false false false []) eq_refl eq_refl eq_refl _)).
  discriminate.
Defined.

Lemma starts_ignored_false (file : string) :
  starts_ignored file = false
  <-> forall i, In i ignored -> PyStr.startswith i file = false.
Proof.
  unfold starts_ignored. split.
  - intros H i Hi. destruct (PyStr.startswith i file) eqn:E; [|reflexivity].
    assert (Hex : existsb (fun ignore => PyStr.startswith ignore file) ignored = true)
      by (apply existsb_exists; now exists i).
    congruence.
  - intros H. destruct (existsb _ ignored) eqn:E; [|reflexivity].
    apply existsb_exists in E. destruct E as (i & Hi & Hs).
    rewrite (H i Hi) in Hs. discriminate.
Qed.

Lemma kept_changed_spec (w : world) (file : string) :
  kept_changed w file = true
  <-> (forall i, In i ignored -> PyStr.startswith i file = false)
      /\ path_exists w file = true
      /\ In (suffix file) c_file_suffixes.
Proof.
  unfold kept_changed, has_c_suffix.
  rewrite !andb_true_iff, negb_true_iff, starts_ignored_false, str_in_spec.
  reflexivity.
Qed.

(** C7: in the branch-diff mode, when the version-control diff exits 0, the
    list of files is the paths of its output, in their order, that pass
    the test: a reported path is in the list exactly when it starts with no
    ignored entry, exists on disk, and has its suffix among [c], [h] and
    [cpp].  The paths of the output are its lines once the whitespace at
    its two ends is stripped; for an output of one path per line they are
    those paths. *)
Theorem branch_diff_mode (w : world) (a : args) :
  ci a = false -> files a = [] -> all_files a = false ->
  p_returncode (run w (git_diff_argv (base_branch a)) None) = 0%Z ->
  let reported :=
    reported_paths (p_stdout (run w (git_diff_argv (base_branch a)) None)) in
  exists fs : list string,
    select_files w a = ([Run (git_diff_argv (base_branch a))], Val (Selected fs))
    /\ fs = filter (kept_changed w) reported
    /\ (forall p, In p reported ->
          (In p fs
           <-> (forall i, In i ignored -> PyStr.startswith i p = false)
               /\ path_exists w p = true
               /\ In (suffix p) c_file_suffixes))
    /\ (forall p ps,
          Forall (fun q => PyStr.has_char nl q = false) (p :: ps) ->
          p <> EmptyString -> PyStr.lstrip p = p ->
          last ps p <> EmptyString -> PyStr.rstrip (last ps p) = last ps p ->
          reported_paths (lines (p :: ps)) = p :: ps).
Proof.
  intros Hci Hfiles Hall Hrc reported.
  exists (filter (kept_changed w) reported).
  split; [exact (select_branch_diff w a Hci Hfiles Hall Hrc)|].
  split; [reflexivity|]. split.
  - intros p Hin. rewrite filter_In, kept_changed_spec. tauto.
  - exact reported_paths_lines.
Qed.

Lemma branch_diff_mode_witness :
  select_files
    (with_path_exists (fun p => negb (String.eqb p "quantum/gone.c"))
       (with_run {| p_returncode := 0;
                    p_stdout := lines ["tests/b.cpp"; "quantum/template/y.c"; "quantum/a.h";
                                       "quantum/gone.c"; "quantum/readme.md"];
                    p_stderr := EmptyString |}
                 (fun _ => false) bare_world))
    (mk_args false false false [])
  = ([Run (git_diff_argv "origin/master")], Val (Selected ["tests/b.cpp"; "quantum/a.h"])).
Proof.
  destruct (branch_diff_mode
              (with_path_exists (fun p => negb (String.eqb p "quantum/gone.c"))
                 (with_run {| p_returncode := 0;
                              p_stdout := lines ["tests/b.cpp"; "quantum/template/y.c";
                                                 "quantum/a.h"; "quantum/gone.c";
                                                 "quantum/readme.md"];
                              p_stderr := EmptyString |}
                           (fun _ => false) bare_world))
              (mk_args false false false []) eq_refl eq_refl eq_refl eq_refl)
    as (fs & Hsel & Hfs & _).
  rewrite Hsel, Hfs. reflexivity.
Defined.

(** ** Paths with no dot *)



(** ** The lookup of the formatter *)

Lemma to_int_not_nil (n : Z) :
  Z.to_int n <> Decimal.Pos Decimal.Nil /\ Z.to_int n <> Decimal.Neg Decimal.Nil.
Proof.
  destruct n as [|p|p]; cbn; split; try discriminate;
    intros H; injection H as H; exact (Unsigned.to_uint_nonnil p H).
Qed.

Lemma of_int_inj (n m : Z) : PyStr.of_int n = PyStr.of_int m -> n = m.
Proof.
  unfold PyStr.of_int. intros H.
  apply (f_equal NilZero.int_of_string) in H.
  destruct (to_int_not_nil n) as [Hn1 Hn2]. destruct (to_int_not_nil m) as [Hm1 Hm2].
  rewrite !NilZero.isi in H by assumption.
  injection H as H. now apply DecimalZ.to_int_inj.
Qed.

Lemma binary_name_inj (n m : Z) : binary_name n = binary_name m -> n = m.
Proof.
  unfold binary_name. intros H. cbn in H. injection H as H. now apply of_int_inj.
Qed.

(** [first_found] gives the fallback when no name is accepted, and else an
    accepted name with no accepted name before it. *)
Lemma first_found_cases (found : string -> bool) (names : list string) (fallback : string) :
  (first_found found names fallback = fallback
   /\ forall n, In n names -> found n = false)
  \/ exists before after,
       names = (before ++ first_found found names fallback :: after)%list
       /\ found (first_found found names fallback) = true
       /\ forall n, In n before -> found n = false.
Proof.
  induction names as [|name names IH].
  - left. split; [reflexivity | intros n []].
  - cbn [first_found]. destruct (found name) eqn:E.
    + right. exists [], names. split; [reflexivity|]. split; [exact E | intros n []].
    + destruct IH as [[Hfb Hall] | (before & after & Hsplit & Hfound & Hbefore)].
      * left. split; [exact Hfb|]. intros n [<-|Hn]; [exact E | now apply Hall].
      * right. exists (name :: before), after. split; [|split].
        -- cbn. now rewrite <- Hsplit.
        -- exact Hfound.
        -- intros n [<-|Hn]; [exact E | now apply Hbefore].
Qed.

Lemma sorted_app_inv (R : Z -> Z -> Prop) (l1 l2 : list Z) :
  StronglySorted R (l1 ++ l2) -> StronglySorted R l2.
Proof.
  induction l1 as [|x l1 IH]; [exact (fun H => H)|].
  cbn. intros H. apply StronglySorted_inv in H. tauto.
Qed.

Lemma which_with_which (found : string -> bool) (w : world) :
  which (with_which found w) = found.
Proof. reflexivity. Qed.

(** No descending list of versions, probed first to last, gives what
    [find_clang_format] gives on every search path. *)
Lemma no_descending_list :
  ~ exists vs : list Z,
      descending vs
      /\ forall w, outcome (find_clang_format w)
                   = Val (first_found (which w) (List.map binary_name vs) "clang-format").
Proof.
  intros (vs & Hdesc & Hall).
  (* with clang-format-10 alone on the path, 10 has to be one of the versions *)
  pose proof (Hall (with_which only_10 bare_world)) as H10.
  rewrite which_with_which in H10.
  change (outcome (find_clang_format (with_which only_10 bare_world)))
    with (@Val string "clang-format-10") in H10.
  injection H10 as H10.
  assert (In10 : In 10%Z vs).
  { destruct (first_found_cases only_10 (List.map binary_name vs) "clang-format")
      as [[Hfb _] | (before & after & Hsplit & _ & _)].
    - rewrite <- H10 in Hfb. discriminate.
    - rewrite <- H10 in Hsplit.
      assert (Hin : In "clang-format-10" (List.map binary_name vs))
        by (rewrite Hsplit; apply in_elt).
      apply in_map_iff in Hin. destruct Hin as (v & Hv & Hin).
      apply (binary_name_inj v 10) in Hv. now subst v. }
  (* with clang-format-7 and clang-format-10 on it, 7 has to come before 10 *)
  pose proof (Hall (with_which only_7_and_10 bare_world)) as H7.
  rewrite which_with_which in H7.
  change (outcome (find_clang_format (with_which only_7_and_10 bare_world)))
    with (@Val string "clang-format-7") in H7.
  injection H7 as H7.
  destruct (first_found_cases only_7_and_10 (List.map binary_name vs) "clang-format")
    as [[Hfb _] | (before & after & Hsplit & _ & Hbefore)].
  - rewrite <- H7 in Hfb. discriminate.
  - rewrite <- H7 in Hsplit.
    apply map_eq_app in Hsplit. destruct Hsplit as (v1 & v2 & -> & Hv1 & Hv2).
    destruct v2 as [|x v2]; [discriminate|].
    apply (f_equal (hd EmptyString)) in Hv2. cbn [List.map hd] in Hv2.
    apply (binary_name_inj x 7) in Hv2. subst x.
    apply in_app_or in In10. destruct In10 as [In10|[E|In10]].
    + assert (Hb : only_7_and_10 (binary_name 10) = false).
      { apply Hbefore. rewrite <- Hv1. now apply in_map. }
      discriminate.
    + discriminate.
    + unfold descending in Hdesc. apply sorted_app_inv in Hdesc.
      apply StronglySorted_inv in Hdesc. destruct Hdesc as [_ Hge].
      rewrite Forall_forall in Hge. specialize (Hge _ In10). lia.
Qed.

(** C9, as the claim states it, fails: the versions are probed from the
    lowest up.  With [clang-format-7] and [clang-format-10] both on the
    search path the lookup stops at [clang-format-7]; with none of them it
    goes through 7, 8, 9, 10 in this order; and no descending list of
    versions gives the results of [find_clang_format]. *)
Lemma find_clang_format_takes_lowest_version :
  find_clang_format (with_which only_7_and_10 bare_world)
  = ([Which "clang-format-7"], Val "clang-format-7")
  /\ find_clang_format bare_world
     = ([Which "clang-format-7"; Which "clang-format-8";
         Which "clang-format-9"; Which "clang-format-10"],
        Val "clang-format")
  /\ ~ exists vs : list Z,
        descending vs
        /\ forall w, outcome (find_clang_format w)
                     = Val (first_found (which w) (List.map binary_name vs) "clang-format").
Proof.
  split; [reflexivity|]. split; [reflexivity|]. exact no_descending_list.
Qed.

(** C9, as amended: every call of [find_clang_format] probes
    [clang-format-7], [clang-format-8], [clang-format-9], [clang-format-10]
    in this ascending order, stops at the first that is on the search path
    and returns it, and returns [clang-format] when none is; a call that
    follows another one probes again and answers for the search path as it
    then is. *)
Theorem find_clang_format_first_found (w : world) :
  find_clang_format w
  = (List.map Which (probed (which w) versioned_names),
     Val (first_found (which w) versioned_names "clang-format"))
  /\ versioned_names = List.map binary_name [7; 8; 9; 10]%Z
  /\ ((clang_format_binary w = "clang-format"
       /\ forall n, In n versioned_names -> which w n = false)
      \/ exists before after,
           versioned_names = (before ++ clang_format_binary w :: after)%list
           /\ which w (clang_format_binary w) = true
           /\ forall n, In n before -> which w n = false)
  /\ forall w' : world,
       (find_clang_format w ;; find_clang_format w')
       = ((clang_format_probes w ++ clang_format_probes w')%list,
          Val (clang_format_binary w')).
Proof.
  split; [exact (find_clang_format_eq w)|]. split; [reflexivity|]. split.
  - apply first_found_cases.
  - intros w'. rewrite (find_clang_format_eq w), (find_clang_format_eq w'). reflexivity.
Qed.

(** ** The command as a whole *)

Lemma process_files_eq (w : world) (a : args) (fs : list string) :
  process_files w a fs
  = if is_empty fs then ([Log ERROR no_files_message []], Val (RBool false))
    else if dry_run a
         then (flat_map (check_events w) fs, Val (RBool (negb (existsb (drifted w) fs))))
         else (clang_format_probes w, Exc TypeError).
Proof.
  unfold process_files. destruct (is_empty fs); [reflexivity|].
  destruct (dry_run a).
  - unfold find_diffs. rewrite find_diffs_loop_eq. cbn [bind ret orb].
    now rewrite app_nil_r.
  - apply cformat_run_eq.
Qed.

Lemma cformat_split (w : world) (a : args) :
  cformat w a
  = match select_files w a with
    | (t, Val (Selected fs)) =>
        ((t ++ events (process_files w a fs))%list, outcome (process_files w a fs))
    | (t, Val (Returned r)) => (t, Val r)
    | (t, Exc e) => (t, Exc e)
    end.
Proof.
  unfold cformat, bind. destruct (select_files w a) as [t [[fs|r]|e]].
  - destruct (process_files w a fs); reflexivity.
  - cbn. now rewrite app_nil_r.
  - reflexivity.
Qed.

(** X1: a path passes the suffix test of the changeset and branch-diff
    modes exactly when it is [c], [h] or [cpp] itself or ends with a dot
    followed by one of the three. *)
Theorem c_suffix_iff_ends_with (file : string) :
  has_c_suffix file = true
  <-> exists s, In s c_file_suffixes /\ (file = s \/ exists pre, file = pre ++ "." ++ s).
Proof.
  assert (Hdotless : forall s, In s c_file_suffixes -> PyStr.has_char "." s = false).
  { intros s [<-|[<-|[<-|[]]]]; reflexivity. }
  unfold has_c_suffix. rewrite str_in_spec. split.
  - intros Hin. exists (suffix file). split; [exact Hin|].
    destruct (PyStr.has_char "." file) eqn:E.
    + right. apply PyStrFacts.has_char_cut in E.
      destruct E as (pre & suf & -> & Hsuf). exists pre.
      change (pre ++ String "." suf) with (pre ++ "." ++ suf).
      now rewrite (suffix_after_last_dot pre suf Hsuf).
    + left. symmetry. now apply suffix_dotless.
  - intros (s & Hs & [->|(pre & ->)]).
    + now rewrite (suffix_dotless s (Hdotless s Hs)).
    + now rewrite (suffix_after_last_dot pre s (Hdotless s Hs)).
Qed.

(** X3: in the branch-diff mode, when the version-control diff exits 0 and
    its output is empty or all whitespace, the one path the loop sees is the
    empty string, which fails the suffix test whatever the disk says: the
    command logs the no-files error and returns [False], with no lookup of
    the formatter. *)
Theorem blank_diff_output_selects_nothing (w : world) (a : args) :
  ci a = false -> files a = [] -> all_files a = false ->
  p_returncode (run w (git_diff_argv (base_branch a)) None) = 0%Z ->
  PyStr.strip (p_stdout (run w (git_diff_argv (base_branch a)) None)) = EmptyString ->
  cformat w a
  = ([Run (git_diff_argv (base_branch a)); Log ERROR no_files_message []],
     Val (RBool false)).
Proof.
  intros Hci Hfiles Hall Hrc Hblank.
  rewrite cformat_split, (select_branch_diff w a Hci Hfiles Hall Hrc).
  unfold reported_paths. rewrite Hblank. cbn [PyStr.split filter].
  assert (E : kept_changed w EmptyString = false).
  { unfold kept_changed.
    replace (has_c_suffix EmptyString) with false by reflexivity.
    now rewrite andb_false_r, andb_false_r. }
  rewrite E. reflexivity.
Qed.

Lemma blank_diff_output_selects_nothing_witness :
  cformat (with_path_exists (fun _ => true)
             (with_run {| p_returncode := 0; p_stdout := String nl (String nl EmptyString);
                          p_stderr := EmptyString |} (fun _ => true) bare_world))
          (mk_args false true false [])
  = ([Run (git_diff_argv "origin/master"); Log ERROR no_files_message []],
     Val (RBool false)).
Proof.
  exact (blank_diff_output_selects_nothing
           (with_path_exists (fun _ => true)
              (with_run {| p_returncode := 0; p_stdout := String nl (String nl EmptyString);
                           p_stderr := EmptyString |} (fun _ => true) bare_world))
           (mk_args false true false []) eq_refl eq_refl eq_refl eq_refl eq_refl).
Defined.

(** ** More on the dry run *)

(** X4: checking a list in two parts is checking the whole: the events of
    [find_diffs] on [l1 ++ l2] are those on [l1] followed by those on [l2],
    and its result is the disjunction of the two results. *)
Theorem find_diffs_app (w : world) (l1 l2 : list string) :
  exists t1 b1 t2 b2,
    find_diffs w l1 = (t1, Val b1)
    /\ find_diffs w l2 = (t2, Val b2)
    /\ find_diffs w (l1 ++ l2) = ((t1 ++ t2)%list, Val (b1 || b2)).
Proof.
  exists (flat_map (check_events w) l1), (existsb (drifted w) l1),
         (flat_map (check_events w) l2), (existsb (drifted w) l2).
  unfold find_diffs. rewrite !find_diffs_loop_eq. cbn [orb].
  now rewrite flat_map_app, existsb_app.
Qed.

Lemma existsb_perm {A} (f : A -> bool) (l1 l2 : list A) :
  Permutation l1 l2 -> existsb f l1 = existsb f l2.
Proof.
  induction 1 as [|x l l' _ IH|x y l|l l' l'' _ IH1 _ IH2]; cbn.
  - reflexivity.
  - now rewrite IH.
  - destruct (f x), (f y); reflexivity.
  - now rewrite IH1.
Qed.

(** X5: the verdict of the dry run does not depend on the order of the
    files: on two lists that are permutations of each other [find_diffs]
    returns the same value, and its events are the same up to their order. *)
Theorem find_diffs_order_irrelevant (w : world) (l1 l2 : list string) :
  Permutation l1 l2 ->
  outcome (find_diffs w l1) = outcome (find_diffs w l2)
  /\ Permutation (events (find_diffs w l1)) (events (find_diffs w l2)).
Proof.
  intros HP. unfold find_diffs. rewrite !find_diffs_loop_eq. cbn [events outcome fst snd orb].
  split.
  - now rewrite (existsb_perm (drifted w) l1 l2 HP).
  - induction HP as [|x l l' _ IH|x y l|l l' l'' _ IH1 _ IH2]; cbn [flat_map].
    + constructor.
    + now apply Permutation_app_head.
    + rewrite !app_assoc. apply Permutation_app_tail, Permutation_app_comm.
    + now transitivity (flat_map (check_events w) l').
Qed.

Lemma find_diffs_order_irrelevant_witness :
  outcome (find_diffs (with_run quiet_process (String.eqb "quantum/b.h") bare_world)
                      ["quantum/a.c"; "quantum/b.h"])
  = outcome (find_diffs (with_run quiet_process (String.eqb "quantum/b.h") bare_world)
                        ["quantum/b.h"; "quantum/a.c"]).
Proof.
  exact (proj1 (find_diffs_order_irrelevant
                  (with_run quiet_process (String.eqb "quantum/b.h") bare_world)
                  ["quantum/a.c"; "quantum/b.h"] ["quantum/b.h"; "quantum/a.c"]
                  (perm_swap "quantum/b.h" "quantum/a.c" []))).
Defined.

Lemma printed_app (t t' : list event) : printed (t ++ t') = (printed t ++ printed t')%list.
Proof.
  induction t as [|e t IH]; [reflexivity|].
  destruct e; cbn; rewrite IH; reflexivity.
Qed.

Lemma printed_probes (names : list string) : printed (List.map Which names) = [].
Proof. induction names as [|n names IH]; [reflexivity|exact IH]. Qed.

(** X6: what [find_diffs] prints is the output of the diff of each file
    whose diff exits non-zero, in the order of the list, and nothing for
    the other files. *)
Theorem dry_run_prints_diffs_of_drifted_files (w : world) (files : list string) :
  printed (events (find_diffs w files))
  = List.map (fun file => p_stdout (diff_of w file)) (filter (drifted w) files).
Proof.
  unfold find_diffs. rewrite find_diffs_loop_eq. cbn [events fst].
  induction files as [|file files IH]; [reflexivity|].
  cbn [flat_map filter]. rewrite printed_app, IH.
  unfold check_events at 1. cbn [printed]. unfold clang_format_probes.
  rewrite printed_app, printed_probes. cbn [app printed].
  destruct (drifted w file); reflexivity.
Qed.

(** X7: in a dry run the processes [cformat] starts are the version-control
    diff, the formatter on one file with nothing else on its command line,
    and the diff of one file; the formatter is never run in place. *)
Theorem dry_run_processes (w : world) (a : args) (argv : list string) :
  dry_run a = true ->
  In argv (processes (events (cformat w a))) ->
  argv = git_diff_argv (base_branch a)
  \/ exists file, argv = [clang_format_binary w; file] \/ argv = diff_argv file.
Proof.
  intros Hdry. rewrite cformat_split.
  pose proof (select_processes w a argv) as Hsel.
  destruct (select_files w a) as [t [[fs|r]|e]]; cbn [events fst] in *.
  - rewrite processes_app, in_app_iff. intros [Hin|Hin]; [left; now apply Hsel|].
    right. rewrite process_files_eq in Hin. destruct (is_empty fs); [destruct Hin|].
    rewrite Hdry in Hin. cbn [events fst] in Hin. rewrite processes_checks in Hin.
    apply in_flat_map in Hin. destruct Hin as (file & _ & [<-|[<-|[]]]);
      exists file; tauto.
  - intros Hin. left. now apply Hsel.
  - intros Hin. left. now apply Hsel.
Qed.

Lemma dry_run_processes_witness :
  diff_argv "quantum/a.h" = git_diff_argv "origin/master"
  \/ exists file,
       diff_argv "quantum/a.h"
       = [clang_format_binary
            (with_path_exists (fun _ => true)
               (with_run {| p_returncode := 0; p_stdout := lines ["quantum/a.h"];
                            p_stderr := EmptyString |} (fun _ => false) bare_world));
          file]
       \/ diff_argv "quantum/a.h" = diff_argv file.
Proof.
  refine (dry_run_processes
            (with_path_exists (fun _ => true)
               (with_run {| p_returncode := 0; p_stdout := lines ["quantum/a.h"];
                            p_stderr := EmptyString |} (fun _ => false) bare_world))
            (mk_args false true false []) (diff_argv "quantum/a.h") eq_refl _).
  vm_compute. right. right. left. reflexivity.
Defined.

(** ** More on the selection *)

(** X8: with [--ci], file names and [-a] on the command line change nothing
    but one WARNING line at the start: the events that follow and the way
    the command ends are those of [--ci] alone. *)
Theorem ci_takes_precedence (w : world) (a : args) :
  ci a = true ->
  cformat w a
  = (((if negb (is_empty (files a)) || all_files a
       then [Log WARNING "Filename or -a passed with --ci, only formatting CI files." []]
       else [])
      ++ events (cformat w (ci_only a)))%list,
     outcome (cformat w (ci_only a))).
Proof.
  intros Hci. rewrite !cformat_split.
  rewrite (select_changeset w a Hci), (select_changeset w (ci_only a) eq_refl).
  cbn [ci_only files all_files is_empty negb orb app].
  assert (Hp : forall fs, process_files w (ci_only a) fs = process_files w a fs)
    by reflexivity.
  destruct (is_empty (changeset_files (files_json w))).
  - cbn [events outcome fst snd]. reflexivity.
  - cbn [events outcome fst snd]. rewrite Hp, app_nil_r, app_nil_l. reflexivity.
Qed.

Lemma ci_takes_precedence_witness :
  cformat (with_files_json ["quantum/a.c"; "README.md"] bare_world)
          (mk_args true true true ["/qmk_firmware/keyboards/x.c"])
  = ([Log WARNING "Filename or -a passed with --ci, only formatting CI files." [];
      Log DEBUG "Checking for changes in %s" [AStr "quantum/a.c"];
      Which "clang-format-7"; Which "clang-format-8";
      Which "clang-format-9"; Which "clang-format-10";
      Popen ["clang-format"; "quantum/a.c"];
      Run (diff_argv "quantum/a.c")],
     Val (RBool true)).
Proof.
  exact (ci_takes_precedence (with_files_json ["quantum/a.c"; "README.md"] bare_world)
           (mk_args true true true ["/qmk_firmware/keyboards/x.c"]) eq_refl).
Defined.

Lemma in_ignored_dir_false (file : string) :
  in_ignored_dir file = false
  <-> forall i, In i ignored -> PyStr.contains i file = false.
Proof.
  unfold in_ignored_dir. split.
  - intros H i Hi. destruct (PyStr.contains i file) eqn:E; [|reflexivity].
    assert (Hex : existsb (fun i => PyStr.contains i file) ignored = true)
      by (apply existsb_exists; now exists i).
    congruence.
  - intros H. destruct (existsb _ ignored) eqn:E; [|reflexivity].
    apply existsb_exists in E. destruct E as (i & Hi & Hs).
    rewrite (H i Hi) in Hs. discriminate.
Qed.

(** X9: with [-a] and neither [--ci] nor file names, the list of files is
    what [c_source_files] enumerates under the core directories, in its
    order, less the paths with an ignored entry somewhere in them: an
    enumerated path is kept exactly when no ignored entry occurs in it.  The
    command starts no process for it and applies no suffix test of its
    own. *)
Theorem all_files_mode (w : world) (a : args) :
  ci a = false -> files a = [] -> all_files a = true ->
  exists fs : list string,
    select_files w a = ([], Val (Selected fs))
    /\ fs = filter (fun file => negb (in_ignored_dir file)) (c_source_files w core_dirs)
    /\ (forall p, In p fs
                  <-> In p (c_source_files w core_dirs)
                      /\ forall i, In i ignored -> PyStr.contains i p = false)
    /\ (forall p, In p (c_source_files w core_dirs) ->
                  (forall i pre post, In i ignored -> p <> pre ++ i ++ post) ->
                  In p fs).
Proof.
  intros Hci Hfiles Hall. exists (unignored_files (c_source_files w core_dirs)).
  split; [exact (select_all_files w a Hci Hfiles Hall)|]. split; [reflexivity|].
  assert (Hiff : forall p, In p (unignored_files (c_source_files w core_dirs))
                  <-> In p (c_source_files w core_dirs)
                      /\ forall i, In i ignored -> PyStr.contains i p = false).
  { intros p. unfold unignored_files.
    rewrite filter_In, negb_true_iff, in_ignored_dir_false. reflexivity. }
  split; [exact Hiff|].
  intros p Hin Hno. apply Hiff. split; [exact Hin|].
  intros i Hi. destruct (PyStr.contains i p) eqn:E; [|reflexivity].
  apply PyStrFacts.contains_spec in E. destruct E as (pre & post & E).
  elim (Hno i pre post Hi E).
Qed.

Lemma all_files_mode_witness :
  select_files (with_c_source_files ["quantum/template/x.c"; "quantum/core.c";
                                     "drivers/my-quantum/template-extra/y.h";
                                     "tests/notes.txt"] bare_world)
               (mk_args false false true [])
  = ([], Val (Selected ["quantum/core.c"; "tests/notes.txt"])).
Proof.
  destruct (all_files_mode
              (with_c_source_files ["quantum/template/x.c"; "quantum/core.c";
                                    "drivers/my-quantum/template-extra/y.h";
                                    "tests/notes.txt"] bare_world)
              (mk_args false false true []) eq_refl eq_refl eq_refl)
    as (fs & Hsel & Hfs & _).
  rewrite Hsel, Hfs. reflexivity.
Defined.
